(** * Trivia API: a shallow embedding of [backend/flaskr/__init__.py]

    The module embeds the pagination helper and the route handlers of the
    Flask application: question listing, deletion, creation, search and the
    quiz selector.  Python exceptions (including the ones [abort] raises)
    are values of an error monad threaded over the database, so the bare
    [except:] clauses of the handlers catch exactly what they catch in the
    source.  Randomness is an explicit tape of raw draws. *)

From Stdlib Require Import String Ascii ZArith List Bool Lia Arith.
Import ListNotations.

Local Open Scope string_scope.
Local Open Scope list_scope.
Local Open Scope Z_scope.

(** ** Data model *)

(** Modelled from the spec: [models.py] (the [Question] and [Category]
    classes with [insert], [delete] and [format]) is not part of the
    sources.  A question row has an integer id and four nullable columns
    (string, string, integer, integer). *)
Record Question : Type := mkQuestion {
  q_id : Z;
  q_question : option string;
  q_answer : option string;
  q_category : option Z;
  q_difficulty : option Z
}.

Record Category : Type := mkCategory {
  c_id : Z;
  c_type : string
}.

(** Modelled from the spec: the formatted record is the JSON-serializable
    projection of a stored question ([Question.format]). *)
Record FQuestion : Type := mkFQuestion {
  f_id : Z;
  f_question : option string;
  f_answer : option string;
  f_category : option Z;
  f_difficulty : option Z
}.

(** Modelled from the spec: [Question.format], the projection of a row onto
    its formatted record. *)
Definition format (q : Question) : FQuestion :=
  mkFQuestion (q_id q) (q_question q) (q_answer q) (q_category q)
              (q_difficulty q).

(** Modelled from the spec: the persistence layer.  The table of questions
    in row order, the table of categories, and the next value of the
    primary-key sequence. *)
Record DB : Type := mkDB {
  db_questions : list Question;
  db_categories : list Category;
  db_next_id : Z
}.

(** The part of a Flask request the handlers read: the [page] query
    argument after [request.args.get('page', 1, type=int)] has tried to
    parse it ([None] when absent or not an integer). *)
Record Request : Type := mkRequest {
  args_page : option Z
}.

Definition args_get_page (request : Request) : Z :=
  match args_page request with
  | Some p => p
  | None => 1
  end.

(** ** Python list slicing *)

(** [l[start:stop]] with step 1: a negative bound counts from the end, and
    both bounds are clamped to [0, len l]. *)
Definition slice_bound (n i : Z) : Z :=
  if i <? 0 then Z.max 0 (i + n) else Z.min i n.

Definition py_slice {A : Type} (l : list A) (start stop : Z) : list A :=
  let n := Z.of_nat (length l) in
  let lo := slice_bound n start in
  let hi := slice_bound n stop in
  firstn (Z.to_nat (hi - lo)) (skipn (Z.to_nat lo) l).

(** ** Pagination helper *)

Definition QUESTIONS_PER_PAGE : Z := 10.

Definition paginate_questions (request : Request) (selection : list Question)
  : list FQuestion :=
  let page := args_get_page request in
  let start := (page - 1) * QUESTIONS_PER_PAGE in
  let end_ := start + QUESTIONS_PER_PAGE in
  let questions := map format selection in
  let current_questions := py_slice questions start end_ in
  current_questions.

(** A request for page [p]. *)
Definition page_request (p : Z) : Request := mkRequest (Some p).

(** ** Exceptions, state and responses *)

(** What a handler can raise: the [HTTPException] of [abort(code)], or any
    other Python exception, kept by its class name. *)
Inductive Exn : Type :=
| HTTPException (code : Z)
| PyError (name : string).

Inductive Result (A : Type) : Type :=
| Return (a : A)
| Raise (e : Exn).
Arguments Return {A} a.
Arguments Raise {A} e.

(** The state a request runs against: the database, the future of the
    random generator as a tape of raw values, and how many values of the
    tape have been drawn so far. *)
Record World : Type := mkWorld {
  w_db : DB;
  w_tape : nat -> nat;
  w_draws : nat
}.

(** Handlers are computations over the world that return or raise.  An
    exception does not undo what was committed before it. *)
Definition M (A : Type) : Type := World -> Result A * World.

Definition ret {A : Type} (a : A) : M A := fun w => (Return a, w).

Definition bind {A B : Type} (m : M A) (k : A -> M B) : M B :=
  fun w =>
    match m w with
    | (Return a, w') => k a w'
    | (Raise e, w') => (Raise e, w')
    end.

Definition raise {A : Type} (e : Exn) : M A := fun w => (Raise e, w).

Definition abort {A : Type} (code : Z) : M A := raise (HTTPException code).

(** [try: body  except: handler], with the bare [except:] of the source:
    every exception of the body is caught, [HTTPException] included. *)
Definition try_except {A : Type} (body handler : M A) : M A :=
  fun w =>
    match body w with
    | (Return a, w') => (Return a, w')
    | (Raise _, w') => handler w'
    end.

Notation "x <- m ;; k" := (bind m (fun x => k))
  (at level 100, m at next level, right associativity).
Notation "m ;;; k" := (bind m (fun _ => k))
  (at level 100, right associativity).

(** JSON values of the response bodies. *)
Inductive JVal : Type :=
| JBool (b : bool)
| JInt (z : Z)
| JStr (s : string)
| JQuestion (q : FQuestion)
| JQuestions (l : list FQuestion)
| JCategories (l : list (Z * string)).

Definition Json : Type := list (string * JVal).

Fixpoint json_get (key : string) (d : Json) : option JVal :=
  match d with
  | [] => None
  | (k, v) :: d' => if String.eqb k key then Some v else json_get key d'
  end.

Record Response : Type := mkResponse {
  status : Z;
  body : Json
}.

Definition jsonify (d : Json) : Response := mkResponse 200 d.

(** The registered error handlers (400, 404, 405, 422). *)
Definition error_message (code : Z) : option string :=
  if code =? 404 then Some "resource not found"
  else if code =? 422 then Some "unprocessable"
  else if code =? 400 then Some "bad request"
  else if code =? 405 then Some "method not allowed"
  else None.

Definition error_response (code : Z) : Response :=
  match error_message code with
  | Some msg =>
      mkResponse code
        [("success", JBool false); ("error", JInt code); ("message", JStr msg)]
  | None => mkResponse code []
  end.

(** How Flask turns the outcome of a view into the HTTP response: an
    [HTTPException] goes to its error handler, any other exception is
    unhandled and becomes a 500. *)
Definition serve (view : M Response) (w : World) : Response * World :=
  match view w with
  | (Return r, w') => (r, w')
  | (Raise (HTTPException code), w') => (error_response code, w')
  | (Raise (PyError _), w') => (mkResponse 500 [], w')
  end.

(** ** Persistence layer *)

(** Modelled from the spec: the queries and the row operations of
    [models.py] and the ORM, over the tables of [DB]. *)
Definition query_all : M (list Question) :=
  fun w => (Return (db_questions (w_db w)), w).

Definition query_filter (p : Question -> bool) : M (list Question) :=
  fun w => (Return (filter p (db_questions (w_db w))), w).

Fixpoint insert_by_id (q : Question) (l : list Question) : list Question :=
  match l with
  | [] => [q]
  | x :: l' => if q_id q <=? q_id x then q :: x :: l' else x :: insert_by_id q l'
  end.

Definition sort_by_id (l : list Question) : list Question :=
  fold_right insert_by_id [] l.

Definition query_order_by_id : M (list Question) :=
  fun w => (Return (sort_by_id (db_questions (w_db w))), w).

Definition categories_all : M (list Category) :=
  fun w => (Return (db_categories (w_db w)), w).

(** [one_or_none()]: the only row, [None] when there is none, and
    [MultipleResultsFound] when there are several. *)
Definition one_or_none {A : Type} (rows : list A) : M (option A) :=
  match rows with
  | [] => ret None
  | [x] => ret (Some x)
  | _ => raise (PyError "MultipleResultsFound")
  end.

(** Modelled from the spec: [question.delete()] of [models.py]; the row
    with the primary key of [q] is removed and the change committed. *)
Definition question_delete (q : Question) : M unit :=
  fun w =>
    let db := w_db w in
    let rows := filter (fun x => negb (q_id x =? q_id q)) (db_questions db) in
    (Return tt,
     mkWorld (mkDB rows (db_categories db) (db_next_id db))
             (w_tape w) (w_draws w)).

(** Modelled from the spec: [Question(...)] followed by [question.insert()]
    of [models.py]; the row gets the next primary key, is appended and
    committed, and the object then carries its id.  The columns are
    nullable, so a row with null fields is accepted. *)
Definition question_insert (question answer : option string)
  (difficulty category : option Z) : M Question :=
  fun w =>
    let db := w_db w in
    let q := mkQuestion (db_next_id db) question answer category difficulty in
    (Return q,
     mkWorld (mkDB (db_questions db ++ [q]) (db_categories db)
                   (db_next_id db + 1))
             (w_tape w) (w_draws w)).

(** ** Python helpers *)

(** [d[k] = v] on a dict kept as an association list. *)
Fixpoint dict_set (k : Z) (v : string) (d : list (Z * string))
  : list (Z * string) :=
  match d with
  | [] => [(k, v)]
  | (k', v') :: d' =>
      if k' =? k then (k, v) :: d' else (k', v') :: dict_set k v d'
  end.

(** [random.randrange(0, n, 1)]: [ValueError] on an empty range, otherwise
    the next raw value of the tape reduced into [0, n). *)
Definition randrange (n : nat) : M nat :=
  fun w =>
    match n with
    | O => (Raise (PyError "ValueError"), w)
    | S _ =>
        (Return (Nat.modulo (w_tape w (w_draws w)) n),
         mkWorld (w_db w) (w_tape w) (S (w_draws w)))
    end.

(** [l[i]] for a non-negative index. *)
Definition list_index {A : Type} (l : list A) (i : nat) : M A :=
  match nth_error l i with
  | Some x => ret x
  | None => raise (PyError "IndexError")
  end.

(** [x in l] on a list of ids. *)
Definition id_in (x : Z) (l : list Z) : bool := existsb (Z.eqb x) l.

Definition is_none {A : Type} (o : option A) : bool :=
  match o with
  | None => true
  | Some _ => false
  end.

(** ** Route handlers *)

Definition json_len {A : Type} (l : list A) : JVal := JInt (Z.of_nat (length l)).

(** [GET /questions] *)
Definition get_questions (request : Request) : M Response :=
  selection <- query_all ;;
  let total_questions := length selection in
  let current_questions := paginate_questions request selection in
  categories <- categories_all ;;
  let categories_dict :=
    fold_left (fun d category => dict_set (c_id category) (c_type category) d)
              categories [] in
  if (length current_questions =? 0)%nat then abort 404
  else
    ret (jsonify [("success", JBool true);
                  ("questions", JQuestions current_questions);
                  ("total_questions", JInt (Z.of_nat total_questions));
                  ("categories", JCategories categories_dict)]).

(** [DELETE /questions/<int:question_id>] *)
Definition delete_question (request : Request) (question_id : Z) : M Response :=
  try_except
    (rows <- query_filter (fun q => q_id q =? question_id) ;;
     question <- one_or_none rows ;;
     match question with
     | None => abort 404
     | Some question =>
         question_delete question ;;;
         selection <- query_order_by_id ;;
         let current_questions := paginate_questions request selection in
         all <- query_all ;;
         ret (jsonify [("success", JBool true);
                       ("deleted", JInt question_id);
                       ("questions", JQuestions current_questions);
                       ("total_questions", json_len all)])
     end)
    (abort 422).

(** The JSON object of [POST /questions]; a missing key and a null value
    both read as [None] through [body.get]. *)
Record CreateBody : Type := mkCreateBody {
  cb_question : option string;
  cb_answer : option string;
  cb_difficulty : option Z;
  cb_category : option Z
}.

(** [POST /questions] *)
Definition create_question (request : Request) (body : CreateBody) : M Response :=
  let new_question := cb_question body in
  let new_answer := cb_answer body in
  let new_difficulty := cb_difficulty body in
  let new_category := cb_category body in
  try_except
    (question <- question_insert new_question new_answer new_difficulty
                                 new_category ;;
     if is_none new_question || is_none new_answer || is_none new_difficulty
        || is_none new_category
     then abort 422
     else
       selection <- query_order_by_id ;;
       let current_questions := paginate_questions request selection in
       all <- query_all ;;
       ret (jsonify [("success", JBool true);
                     ("created", JInt (q_id question));
                     ("questions", JQuestions current_questions);
                     ("total_questions", json_len all)]))
    (abort 422).

(** The JSON object of [POST /questions/search]. *)
Record SearchBody : Type := mkSearchBody {
  sb_searchTerm : option string
}.

(** Python truthiness of [body.get('searchTerm', None)]. *)
Definition truthy (term : option string) : bool :=
  match term with
  | None => false
  | Some s => negb (String.eqb s "")
  end.

Section Search.

(** [column.ilike(pattern)] of the ORM, decided by the database: the
    pattern first, the text of the column second. *)
Variable ilike : string -> string -> bool.

Definition question_ilike (pattern : string) (q : Question) : bool :=
  match q_question q with
  | Some text => ilike pattern text
  | None => false
  end.

(** [POST /questions/search] *)
Definition search_questions (request : Request) (body : SearchBody)
  : M Response :=
  let search_term := sb_searchTerm body in
  if truthy search_term then
    let term := match search_term with Some s => s | None => "" end in
    selection <- query_filter
                   (question_ilike (String.append "%" (String.append term "%"))) ;;
    let current_questions := paginate_questions request selection in
    ret (jsonify [("success", JBool true);
                  ("questions", JQuestions current_questions);
                  ("total_questions", json_len selection)])
  else abort 404.

End Search.

(** The JSON object of [POST /quizzes]; of [quiz_category] only the [id]
    is read. *)
Record QuizCategory : Type := mkQuizCategory {
  qc_id : Z
}.

Record QuizBody : Type := mkQuizBody {
  qb_previous_questions : option (list Z);
  qb_quiz_category : option QuizCategory
}.

(** The candidate pool of a quiz. *)
Definition quiz_pool (category : QuizCategory) : M (list Question) :=
  if qc_id category =? 0 then query_all
  else query_filter (fun q => match q_category q with
                              | Some c => c =? qc_id category
                              | None => false
                              end).

(** The [for question in questions:] loop.  [iter] is what is left of the
    iteration, [questions] the pool the draws index into; the result is
    [random_question] ([None] for the initial [[]]) and [used]. *)
Fixpoint draw_loop (iter questions : list Question)
  (previous_questions : list Z) (random_question : option Question)
  : M (option Question * bool) :=
  match iter with
  | [] => ret (random_question, false)
  | _ :: iter' =>
      i <- randrange (length questions) ;;
      q <- list_index questions i ;;
      if negb (id_in (q_id q) previous_questions) then ret (Some q, true)
      else draw_loop iter' questions previous_questions (Some q)
  end.

(** [POST /quizzes] *)
Definition play_quiz (body : QuizBody) : M Response :=
  let previous_questions := qb_previous_questions body in
  let category := qb_quiz_category body in
  match category, previous_questions with
  | Some category, Some previous_questions =>
      questions <- quiz_pool category ;;
      let total := length questions in
      drawn <- draw_loop questions questions previous_questions None ;;
      let random_question := fst drawn in
      if (length previous_questions =? total)%nat then
        ret (jsonify [("success", JBool true)])
      else
        match random_question with
        | Some q => ret (jsonify [("success", JBool true);
                                  ("question", JQuestion (format q))])
        | None => raise (PyError "AttributeError")
        end
  | _, _ => abort 400
  end.

(** ** Sample data for closed examples *)

Definition sample_question (i : nat) : Question :=
  mkQuestion (Z.of_nat i) (Some "What is the capital of France?")
             (Some "Paris") (Some 3) (Some 1).

(** Questions with ids [1 .. n]. *)
Definition sample_questions (n : nat) : list Question :=
  map sample_question (seq 1 n).

Definition sample_categories : list Category :=
  [mkCategory 1 "Science"; mkCategory 2 "Art"; mkCategory 3 "Geography"].

(** A world with questions [1 .. n] whose generator yields [tape]. *)
Definition sample_world (n : nat) (tape : nat -> nat) : World :=
  mkWorld (mkDB (sample_questions n) sample_categories (Z.of_nat n + 1)) tape 0.

Definition ids_of (l : list FQuestion) : list Z := map f_id l.

(** The page numbers [1 .. ceil(n / 10)]. *)
Definition page_numbers (n : nat) : list Z :=
  map Z.of_nat (seq 1 ((n + 9) / 10)).

(** ** Definitions used by the statements *)

(** The rows [quiz_pool] selects, as a function of the database. *)
Definition pool_of (category : QuizCategory) (db : DB) : list Question :=
  if qc_id category =? 0 then db_questions db
  else filter (fun q => match q_category q with
                        | Some c => c =? qc_id category
                        | None => false
                        end) (db_questions db).

(** The response of [play_quiz] in terms of what its draw loop returned. *)
Definition quiz_response (previous : list Z) (pool : list Question)
  (random_question : option Question) : M Response :=
  if (length previous =? length pool)%nat then
    ret (jsonify [("success", JBool true)])
  else
    match random_question with
    | Some q => ret (jsonify [("success", JBool true);
                              ("question", JQuestion (format q))])
    | None => raise (PyError "AttributeError")
    end.

(** The SQL [LIKE] wildcards over lists of characters: [%] matches any run
    of characters, [_] any single one.  Escape characters are left out. *)
Fixpoint like_match (pattern text : list ascii) {struct pattern} : bool :=
  match pattern with
  | [] => match text with [] => true | _ :: _ => false end
  | c :: pattern' =>
      if Ascii.eqb c "%" then
        (fix skip (t : list ascii) : bool :=
           like_match pattern' t
           || match t with [] => false | _ :: t' => skip t' end) text
      else
        match text with
        | [] => false
        | d :: text' =>
            (Ascii.eqb c "_" || Ascii.eqb c d) && like_match pattern' text'
        end
  end.

Definition lower (c : ascii) : ascii :=
  let n := nat_of_ascii c in
  if ((65 <=? n) && (n <=? 90))%nat then ascii_of_nat (n + 32) else c.

(** An instance of [ilike] for closed examples. *)
Definition sql_ilike (pattern text : string) : bool :=
  like_match (map lower (list_ascii_of_string pattern))
             (map lower (list_ascii_of_string text)).

(** ** Category routes *)


(** [d.get(k)] on a dict kept as an association list. *)
Fixpoint dict_get (k : Z) (d : list (Z * string)) : option string :=
  match d with
  | [] => None
  | (k', v) :: d' => if k' =? k then Some v else dict_get k d'
  end.

(** [GET /categories] *)
Definition get_categories : M Response :=
  categories <- categories_all ;;
  let categories_dict :=
    fold_left (fun d category => dict_set (c_id category) (c_type category) d)
              categories [] in
  if (length categories_dict =? 0)%nat then abort 404
  else
    ret (jsonify [("success", JBool true);
                  ("categories", JCategories categories_dict)]).


(** The questions of a response body, [[]] when the key is missing. *)
Definition body_questions (d : Json) : list FQuestion :=
  match json_get "questions" d with
  | Some (JQuestions l) => l
  | _ => []
  end.

(** The question the [k]-th draw from world [w] on picks in the pool. *)
Definition nth_draw (questions : list Question) (w : World) (k : nat)
  : option Question :=
  nth_error questions
            (Nat.modulo (w_tape w (w_draws w + k)%nat) (length questions)).

(** The loop of the category routes that fills [categories_dict]. *)
Local Abbreviation build categories d :=
  (fold_left (fun acc category => dict_set (c_id category) (c_type category) acc)
             categories d).

(** * Pagination *)

Section Slicing.

Context {A : Type}.

Lemma py_slice_nonneg (l : list A) (start stop : Z) :
  0 <= start <= stop ->
  py_slice l start stop =
  firstn (Z.to_nat (stop - start)) (skipn (Z.to_nat start) l).
Proof.
  intros [Hs Hle]. unfold py_slice, slice_bound.
  destruct (start <? 0) eqn:E1; [apply Z.ltb_lt in E1; lia|].
  destruct (stop <? 0) eqn:E2; [apply Z.ltb_lt in E2; lia|].
  destruct (Z_le_gt_dec (Z.of_nat (length l)) start) as [Hbig|Hsmall].
  - rewrite (Z.min_r start) by lia.
    rewrite (skipn_all2 l (n := Z.to_nat start)) by lia.
    rewrite skipn_all2 by lia. now rewrite !firstn_nil.
  - rewrite (Z.min_l start) by lia.
    destruct (Z_le_gt_dec stop (Z.of_nat (length l))) as [Hin|Hout].
    + now rewrite Z.min_l by lia.
    + rewrite Z.min_r by lia.
      rewrite !firstn_all2; trivial; rewrite length_skipn; lia.
Qed.

Lemma firstn_add_skipn (a b : nat) (l : list A) :
  firstn (a + b) l = firstn a l ++ firstn b (skipn a l).
Proof.
  revert l. induction a as [|a IH]; intros l; simpl; trivial.
  destruct l as [|x l]; simpl.
  - now rewrite firstn_nil.
  - now rewrite IH.
Qed.

(** Consecutive windows of width [k] glue back into a prefix. *)
Lemma concat_windows (k m : nat) (l : list A) :
  concat (map (fun i => firstn k (skipn (i * k) l)) (seq 0 m)) =
  firstn (m * k) l.
Proof.
  induction m as [|m IH]; [reflexivity|].
  rewrite seq_S, map_app, concat_app, IH. simpl.
  rewrite app_nil_r, <- firstn_add_skipn. f_equal. lia.
Qed.

End Slicing.

Lemma paginate_questions_window (request : Request) (selection : list Question) :
  1 <= args_get_page request ->
  paginate_questions request selection =
  firstn 10 (skipn (Z.to_nat ((args_get_page request - 1) * 10))
                   (map format selection)).
Proof.
  intros Hp. unfold paginate_questions, QUESTIONS_PER_PAGE.
  rewrite py_slice_nonneg by lia. f_equal. lia.
Qed.

(** C5 (as amended): for every page number [p >= 1] and every selection of
    [N] questions, [paginate_questions] returns exactly the window
    [(p-1)*10, p*10) of the formatted items, hence exactly
    [min 10 (max 0 (N - 10*(p-1)))] items, and a page past the data is the
    empty list, not an error. *)
Theorem paginate_questions_from_page_1 (request : Request)
  (selection : list Question) :
  1 <= args_get_page request ->
  let p := args_get_page request in
  let N := Z.of_nat (length selection) in
  paginate_questions request selection =
    firstn 10 (skipn (Z.to_nat ((p - 1) * 10)) (map format selection))
  /\ Z.of_nat (length (paginate_questions request selection)) =
       Z.min 10 (Z.max 0 (N - 10 * (p - 1)))
  /\ ((p - 1) * 10 >= N -> paginate_questions request selection = []).
Proof.
  intros Hp p N. subst p N.
  rewrite (paginate_questions_window request selection Hp).
  split; [reflexivity|]. split.
  - rewrite length_firstn, length_skipn, length_map. lia.
  - intros Hout. rewrite skipn_all2; [apply firstn_nil|].
    rewrite length_map. lia.
Qed.

(** Page 2 of twelve questions holds questions 11 and 12. *)
Lemma paginate_questions_page_2_of_12 :
  ids_of (paginate_questions (page_request 2) (sample_questions 12)) = [11; 12].
Proof.
  destruct (paginate_questions_from_page_1 (page_request 2) (sample_questions 12))
    as [Hwin _].
  - unfold page_request, args_get_page; simpl; lia.
  - rewrite Hwin. reflexivity.
Defined.

(** C5 (as stated) fails below page 1: page [-1] of fifteen questions is
    the slice [[-20:-10]], the first five questions, which is neither the
    [min 10 (max 0 (15 - 10*(-2))) = 10] items of the formula nor empty. *)
Lemma paginate_questions_negative_page :
  ids_of (paginate_questions (page_request (-1)) (sample_questions 15)) =
    [1; 2; 3; 4; 5]
  /\ Z.of_nat (length (paginate_questions (page_request (-1))
                                          (sample_questions 15))) <>
     Z.min 10 (Z.max 0 (Z.of_nat (length (sample_questions 15)) - 10 * (-1 - 1)))
  /\ paginate_questions (page_request (-1)) (sample_questions 15) <> [].
Proof.
  repeat split; [vm_compute; discriminate | vm_compute; discriminate].
Qed.

(** C6: for every selection of [N] questions, the pages [1 .. ceil(N/10)]
    of [paginate_questions], concatenated in order, are the whole list of
    formatted items. *)
Theorem paginate_questions_pages_concat (selection : list Question) :
  concat (map (fun p => paginate_questions (page_request p) selection)
              (page_numbers (length selection))) =
  map format selection.
Proof.
  unfold page_numbers. rewrite <- seq_shift, !map_map.
  rewrite (map_ext_in _
             (fun i => firstn 10 (skipn (i * 10) (map format selection)))).
  - rewrite concat_windows. apply firstn_all2. rewrite length_map.
    pose proof (Nat.div_mod_eq (length selection + 9) 10) as Hdm.
    pose proof (Nat.mod_upper_bound (length selection + 9) 10) as Hlt.
    lia.
  - intros i _.
    assert (Hpage : args_get_page (page_request (Z.of_nat (S i))) = Z.of_nat i + 1)
      by (unfold args_get_page, page_request; cbn [args_page]; lia).
    rewrite paginate_questions_window by (rewrite Hpage; lia).
    rewrite Hpage. do 2 f_equal. lia.
Qed.

(** * Deletion and creation *)

Lemma filter_none {A : Type} (p : A -> bool) (l : list A) :
  (forall x, In x l -> p x = false) -> filter p l = [].
Proof.
  induction l as [|x l IH]; intros Hp; simpl; trivial.
  rewrite (Hp x) by now left. apply IH. intros y Hy. apply Hp. now right.
Qed.

(** Whatever the database holds, deleting an id that no row carries ends in
    the 422 of the [except:] clause, which has caught the [abort(404)] of
    the [try] block; nothing is written. *)
Lemma delete_question_absent (request : Request) (question_id : Z) (w : World) :
  (forall q, In q (db_questions (w_db w)) -> q_id q <> question_id) ->
  serve (delete_question request question_id) w = (error_response 422, w).
Proof.
  intros Habsent.
  unfold serve, delete_question, try_except, bind, query_filter.
  rewrite filter_none; [reflexivity|].
  intros q Hq. apply Z.eqb_neq. now apply Habsent.
Qed.

(** C1: [DELETE /questions/99] on a database holding questions 1, 2 and 3.
    No question has id 99, and the response is 422 with the body of the
    422 handler, not 404. *)
Theorem delete_question_missing_id_is_422 :
  let w := sample_world 3 (fun _ => 0%nat) in
  let r := fst (serve (delete_question (page_request 1) 99) w) in
  existsb (fun q => q_id q =? 99) (db_questions (w_db w)) = false
  /\ status r = 422
  /\ r = error_response 422
  /\ status r <> 404.
Proof.
  repeat split; vm_compute; congruence.
Qed.

(** The rows left by [question.delete()] do not carry the deleted id. *)
Lemma question_delete_omits (q : Question) (w : World) :
  ~ In (q_id q) (map q_id (db_questions (w_db (snd (question_delete q w))))).
Proof.
  simpl. rewrite in_map_iff. intros [x [Hid Hin]].
  apply filter_In in Hin. destruct Hin as [_ Hneq].
  rewrite Hid, Z.eqb_refl in Hneq. discriminate.
Qed.

(** A successful deletion on the sample data: 200 with the four keys, and
    the listing that follows omits the id. *)
Example delete_question_present_sample :
  let w := sample_world 3 (fun _ => 0%nat) in
  let '(r, w') := serve (delete_question (page_request 1) 2) w in
  status r = 200
  /\ json_get "success" (body r) = Some (JBool true)
  /\ json_get "deleted" (body r) = Some (JInt 2)
  /\ option_map (fun v => match v with JQuestions l => ids_of l | _ => [] end)
                (json_get "questions" (body r)) = Some [1; 3]
  /\ json_get "total_questions" (body r) = Some (JInt 2)
  /\ option_map (fun v => match v with JQuestions l => ids_of l | _ => [] end)
                (json_get "questions"
                   (body (fst (serve (get_questions (page_request 1)) w')))) =
     Some [1; 3].
Proof.
  vm_compute. repeat split.
Qed.

(** C4: for every [POST /questions] whose body lacks at least one of the
    four fields, the response is the 422 error, and the row built from the
    body, null fields included, has been inserted before the validation
    aborted: the database after the request holds it. *)
Theorem create_question_missing_field (request : Request) (body : CreateBody)
  (w : World) :
  cb_question body = None \/ cb_answer body = None
  \/ cb_difficulty body = None \/ cb_category body = None ->
  let db := w_db w in
  let row := mkQuestion (db_next_id db) (cb_question body) (cb_answer body)
                        (cb_category body) (cb_difficulty body) in
  fst (serve (create_question request body) w) = error_response 422
  /\ fst (question_insert (cb_question body) (cb_answer body)
                          (cb_difficulty body) (cb_category body) w) = Return row
  /\ db_questions (w_db (snd (serve (create_question request body) w))) =
     db_questions db ++ [row].
Proof.
  intros Hmissing db row. subst db row.
  assert (Hnone : is_none (cb_question body) || is_none (cb_answer body)
                  || is_none (cb_difficulty body) || is_none (cb_category body)
                  = true).
  { destruct Hmissing as [H|[H|[H|H]]]; rewrite H; simpl;
      rewrite ?orb_true_r; reflexivity. }
  unfold serve, create_question, try_except, bind, question_insert.
  rewrite Hnone. simpl. repeat split.
Qed.

(** A body without [answer] against the sample data: 422, and question 4
    is in the table afterwards. *)
Lemma create_question_missing_answer_sample :
  let body := mkCreateBody (Some "Who?") None (Some 2) (Some 1) in
  let w := sample_world 3 (fun _ => 0%nat) in
  status (fst (serve (create_question (page_request 1) body) w)) = 422
  /\ map q_id (db_questions (w_db (snd (serve (create_question (page_request 1) body) w)))) =
     [1; 2; 3; 4].
Proof.
  intros body w.
  destruct (create_question_missing_field (page_request 1) body w)
    as [Hresp [_ Hrows]].
  - right. left. reflexivity.
  - rewrite Hresp, Hrows. split; reflexivity.
Defined.

(** When exactly one row carries the id, the deletion answers 200 with the
    four keys and leaves the rows with another id. *)
Lemma delete_question_present (request : Request) (question_id : Z)
  (q : Question) (w : World) :
  filter (fun x => q_id x =? question_id) (db_questions (w_db w)) = [q] ->
  let rows := filter (fun x => negb (q_id x =? question_id))
                     (db_questions (w_db w)) in
  serve (delete_question request question_id) w =
  (jsonify [("success", JBool true);
            ("deleted", JInt question_id);
            ("questions", JQuestions (paginate_questions request (sort_by_id rows)));
            ("total_questions", json_len rows)],
   mkWorld (mkDB rows (db_categories (w_db w)) (db_next_id (w_db w)))
           (w_tape w) (w_draws w)).
Proof.
  intros Hone rows. subst rows.
  assert (Hid : q_id q = question_id).
  { assert (Hin : In q [q]) by now left.
    rewrite <- Hone in Hin. apply filter_In in Hin.
    now apply Z.eqb_eq. }
  unfold serve, delete_question, try_except, bind, query_filter.
  rewrite Hone. simpl. rewrite Hid. reflexivity.
Qed.

(** * Search *)

Example sql_ilike_capital : sql_ilike "%CAPITAL%" "What is the capital of France?" = true.
Proof. reflexivity. Qed.

Example sql_ilike_zebra : sql_ilike "%zebra%" "What is the capital of France?" = false.
Proof. reflexivity. Qed.

Lemma py_slice_nil {A : Type} (start stop : Z) : py_slice (@nil A) start stop = [].
Proof.
  unfold py_slice. now rewrite skipn_nil, firstn_nil.
Qed.

Lemma paginate_questions_nil (request : Request) : paginate_questions request [] = [].
Proof.
  unfold paginate_questions. simpl map. apply py_slice_nil.
Qed.

(** C8: for every [POST /questions/search], whatever [ilike] the database
    implements: the response is 404 exactly when [searchTerm] is falsy or
    absent; and when [searchTerm] is truthy and the match selects no
    question, the response is 200 with [success: true], an empty
    [questions] list and [total_questions: 0]. *)
Theorem search_questions_404_iff_falsy (ilike : string -> string -> bool)
  (request : Request) (body : SearchBody) (w : World) :
  (status (fst (serve (search_questions ilike request body) w)) = 404
   <-> truthy (sb_searchTerm body) = false)
  /\ (forall term,
        sb_searchTerm body = Some term -> truthy (Some term) = true ->
        filter (question_ilike ilike (String.append "%" (String.append term "%")))
               (db_questions (w_db w)) = [] ->
        fst (serve (search_questions ilike request body) w) =
        mkResponse 200 [("success", JBool true);
                        ("questions", JQuestions []);
                        ("total_questions", JInt 0)]).
Proof.
  unfold serve, search_questions, bind, query_filter. split.
  - destruct (truthy (sb_searchTerm body)); simpl; split; congruence.
  - intros term Hterm Htruthy Hempty. rewrite Hterm, Htruthy, Hempty.
    simpl. now rewrite paginate_questions_nil.
Qed.

(** Searching the sample data for "zebra" is a success with no question;
    searching with an empty term is a 404. *)
Lemma search_questions_no_match_sample :
  let w := sample_world 3 (fun _ => 0%nat) in
  fst (serve (search_questions sql_ilike (page_request 1)
                               (mkSearchBody (Some "zebra"))) w) =
    mkResponse 200 [("success", JBool true);
                    ("questions", JQuestions []);
                    ("total_questions", JInt 0)]
  /\ status (fst (serve (search_questions sql_ilike (page_request 1)
                                          (mkSearchBody (Some ""))) w)) = 404.
Proof.
  intros w. split.
  - apply (proj2 (search_questions_404_iff_falsy sql_ilike (page_request 1)
                    (mkSearchBody (Some "zebra")) w) "zebra");
      reflexivity.
  - apply (proj2 (proj1 (search_questions_404_iff_falsy sql_ilike
                           (page_request 1) (mkSearchBody (Some "")) w)));
      reflexivity.
Defined.

(** * Quiz *)

Lemma quiz_pool_run (category : QuizCategory) (w : World) :
  quiz_pool category w = (Return (pool_of category (w_db w)), w).
Proof.
  unfold quiz_pool, pool_of. now destruct (qc_id category =? 0).
Qed.

Lemma randrange_run (n : nat) (w : World) :
  n <> O ->
  randrange n w =
  (Return (Nat.modulo (w_tape w (w_draws w)) n),
   mkWorld (w_db w) (w_tape w) (S (w_draws w))).
Proof.
  destruct n; [congruence | reflexivity].
Qed.

Lemma list_index_mod {A : Type} (l : list A) (r : nat) (w : World) :
  l <> [] ->
  exists x, In x l /\ list_index l (Nat.modulo r (length l)) w = (Return x, w).
Proof.
  intros Hl. unfold list_index.
  assert (Hlt : (Nat.modulo r (length l) < length l)%nat).
  { apply Nat.mod_upper_bound. destruct l; simpl; congruence. }
  destruct (nth_error l (Nat.modulo r (length l))) as [x|] eqn:E.
  - exists x. split; [now apply nth_error_In in E | reflexivity].
  - apply nth_error_None in E. lia.
Qed.

(** The draw loop always returns, leaves the database alone, and draws at
    most once per iteration; it draws at least once when it iterates at
    all, and what it reports as [used] is a pool question that is not in
    [previous_questions]. *)
Lemma draw_loop_run (iter questions : list Question) (previous : list Z) :
  iter = [] \/ questions <> [] ->
  forall (rq : option Question) (w : World),
  exists rq' used n,
    draw_loop iter questions previous rq w =
      (Return (rq', used), mkWorld (w_db w) (w_tape w) (w_draws w + n)%nat)
    /\ (n <= length iter)%nat
    /\ (iter <> [] -> (1 <= n)%nat)
    /\ (iter = [] -> rq' = rq)
    /\ (used = true ->
        exists q, rq' = Some q /\ In q questions
                  /\ id_in (q_id q) previous = false).
Proof.
  intros Hpool. induction iter as [|x iter IH]; intros rq w.
  - exists rq, false, O. simpl. unfold ret. rewrite Nat.add_0_r.
    destruct w; simpl. repeat split; trivial; try congruence; lia.
  - assert (Hq : questions <> []) by (destruct Hpool; congruence).
    assert (Hlen : length questions <> O) by (destruct questions; simpl; congruence).
    simpl draw_loop. unfold bind at 1. rewrite randrange_run by assumption.
    destruct (list_index_mod questions (w_tape w (w_draws w))
                (mkWorld (w_db w) (w_tape w) (S (w_draws w))) Hq)
      as [q [Hin Hidx]].
    unfold bind at 1. rewrite Hidx.
    destruct (id_in (q_id q) previous) eqn:Eseen; cbn [negb].
    + destruct (IH (or_intror Hq) (Some q)
                   (mkWorld (w_db w) (w_tape w) (S (w_draws w))))
        as [rq' [used [n [Hrun [Hle [_ [_ Hused]]]]]]].
      cbn [w_db w_tape w_draws] in Hrun.
      exists rq', used, (S n). rewrite Hrun.
      rewrite Nat.add_succ_r. split; [reflexivity|]. split; [simpl; lia|].
      split; [intros _; lia|]. split; [discriminate | exact Hused].
    + exists (Some q), true, 1%nat. unfold ret.
      rewrite Nat.add_1_r. split; [reflexivity|]. split; [simpl; lia|].
      split; [intros _; lia|]. split; [discriminate|].
      intros _. exists q. auto.
Qed.

Lemma play_quiz_run (quiz : QuizBody) (w : World) (category : QuizCategory)
  (previous : list Z) :
  qb_quiz_category quiz = Some category ->
  qb_previous_questions quiz = Some previous ->
  let pool := pool_of category (w_db w) in
  exists rq used n,
    draw_loop pool pool previous None w =
      (Return (rq, used), mkWorld (w_db w) (w_tape w) (w_draws w + n)%nat)
    /\ play_quiz quiz w =
       quiz_response previous pool rq
                     (mkWorld (w_db w) (w_tape w) (w_draws w + n)%nat)
    /\ (n <= length pool)%nat
    /\ (pool <> [] -> (1 <= n)%nat)
    /\ (pool = [] -> rq = None).
Proof.
  intros Hcat Hprev pool.
  assert (Hpool : pool = [] \/ pool <> [])
    by (destruct pool; [now left | right; discriminate]).
  destruct (draw_loop_run pool pool previous Hpool None w)
    as [rq [used [n [Hrun [Hle [Hge [Hnil _]]]]]]].
  exists rq, used, n. split; [exact Hrun|]. split; [|auto].
  unfold play_quiz. rewrite Hcat, Hprev.
  unfold bind. rewrite quiz_pool_run. fold pool. rewrite Hrun. reflexivity.
Qed.

(** C2: [POST /quizzes] over questions 1 and 2 with
    [previous_questions = [1]], any category, and a generator whose two
    draws both give index 0.  The length of [previous_questions] differs
    from the pool size, and the response carries question 1, which is a
    member of [previous_questions]. *)
Theorem play_quiz_returns_seen_question :
  let quiz := mkQuizBody (Some [1]) (Some (mkQuizCategory 0)) in
  let w := sample_world 2 (fun _ => 0%nat) in
  length [1] <> length (pool_of (mkQuizCategory 0) (w_db w))
  /\ fst (serve (play_quiz quiz) w) =
     jsonify [("success", JBool true);
              ("question", JQuestion (format (sample_question 1)))]
  /\ id_in (f_id (format (sample_question 1))) [1] = true
  /\ fst (draw_loop (pool_of (mkQuizCategory 0) (w_db w))
                    (pool_of (mkQuizCategory 0) (w_db w)) [1] None w) =
     Return (Some (sample_question 1), false).
Proof.
  repeat split. vm_compute. discriminate.
Qed.

(** C3 (as amended): for every [POST /quizzes] with both inputs present
    where the length of [previous_questions] equals the pool size, the
    response is 200 [{success: true}] with no [question] key; the length
    check comes after the draw loop, which by then has made at least one
    draw (and at most one per pool question) whenever the pool is not
    empty. *)
Theorem play_quiz_complete (quiz : QuizBody) (w : World)
  (category : QuizCategory) (previous : list Z) :
  qb_quiz_category quiz = Some category ->
  qb_previous_questions quiz = Some previous ->
  length previous = length (pool_of category (w_db w)) ->
  let r := serve (play_quiz quiz) w in
  fst r = jsonify [("success", JBool true)]
  /\ json_get "question" (body (fst r)) = None
  /\ (pool_of category (w_db w) <> [] ->
      (w_draws w < w_draws (snd r) <=
       w_draws w + length (pool_of category (w_db w)))%nat).
Proof.
  intros Hcat Hprev Hlen r. subst r.
  destruct (play_quiz_run quiz w category previous Hcat Hprev)
    as [rq [used [n [_ [Hrun [Hle [Hge _]]]]]]].
  unfold serve. rewrite Hrun. unfold quiz_response.
  rewrite Hlen, Nat.eqb_refl. unfold ret. cbn [fst snd w_draws].
  split; [reflexivity|]. split; [reflexivity|].
  intros Hne. specialize (Hge Hne). lia.
Qed.

(** All three questions of the sample data already served. *)
Lemma play_quiz_complete_sample :
  fst (serve (play_quiz (mkQuizBody (Some [1; 2; 3]) (Some (mkQuizCategory 0))))
             (sample_world 3 (fun _ => 0%nat))) =
  jsonify [("success", JBool true)].
Proof.
  apply (play_quiz_complete
           (mkQuizBody (Some [1; 2; 3]) (Some (mkQuizCategory 0)))
           (sample_world 3 (fun _ => 0%nat)) (mkQuizCategory 0) [1; 2; 3]);
    reflexivity.
Defined.

(** C3 (as stated) fails: with one question in the pool and one id in
    [previous_questions] the response is [{success: true}], but the draw
    loop has run first and has drawn once from the generator. *)
Lemma play_quiz_draws_before_length_check :
  let quiz := mkQuizBody (Some [1]) (Some (mkQuizCategory 0)) in
  let w := sample_world 1 (fun _ => 0%nat) in
  length [1] = length (pool_of (mkQuizCategory 0) (w_db w))
  /\ fst (serve (play_quiz quiz) w) = jsonify [("success", JBool true)]
  /\ w_draws w = 0%nat
  /\ w_draws (snd (serve (play_quiz quiz) w)) = 1%nat
  /\ w_draws (snd (serve (play_quiz quiz) w)) <> w_draws w.
Proof.
  repeat split. vm_compute. discriminate.
Qed.

(** C7 (as amended): the draw loop is memoryless sampling with retry, a
    rejected index can be drawn again, but it is bounded by the [for] over
    the pool: for every pool, every [previous_questions] and every
    generator it returns after at most one draw per pool question. *)
Theorem draw_loop_at_most_pool_size :
  (forall (questions : list Question) (previous : list Z) (w : World),
     (exists rq used,
        fst (draw_loop questions questions previous None w) = Return (rq, used))
     /\ (w_draws (snd (draw_loop questions questions previous None w)) <=
         w_draws w + length questions)%nat)
  /\ (exists (questions : list Question) (previous : list Z) (w : World),
        Nat.modulo (w_tape w 0) (length questions) =
        Nat.modulo (w_tape w 1) (length questions)
        /\ w_draws w = 0%nat
        /\ w_draws (snd (draw_loop questions questions previous None w)) = 3%nat).
Proof.
  split.
  - intros questions previous w.
    assert (Hpool : questions = [] \/ questions <> [])
      by (destruct questions; [now left | right; discriminate]).
    destruct (draw_loop_run questions questions previous Hpool None w)
      as [rq [used [n [Hrun [Hle _]]]]].
    rewrite Hrun. cbn [fst snd w_draws]. split; [now exists rq, used | lia].
  - exists (sample_questions 3), [1],
      (sample_world 3 (fun k => if (k <? 2)%nat then 0%nat else 1%nat)).
    repeat split.
Qed.

(** C7 (as stated) fails: no pool and [previous_questions] make the number
    of draws exceed every bound; the pool size bounds it. *)
Lemma draw_loop_draws_not_unbounded :
  ~ (exists (questions : list Question) (previous : list Z) (db : DB),
       forall bound : nat, exists tape : nat -> nat,
         (bound < w_draws (snd (draw_loop questions questions previous None
                                          (mkWorld db tape 0))))%nat).
Proof.
  intros [questions [previous [db Hunbounded]]].
  destruct (Hunbounded (length questions)) as [tape Hlt].
  assert (Hpool : questions = [] \/ questions <> [])
    by (destruct questions; [now left | right; discriminate]).
  destruct (draw_loop_run questions questions previous Hpool None
              (mkWorld db tape 0))
    as [rq [used [n [Hrun [Hle _]]]]].
  rewrite Hrun in Hlt. cbn [snd w_draws] in Hlt. lia.
Qed.

(** C9: when both inputs are present and the pool is empty: with an empty
    [previous_questions] the response is 200 [{success: true}] without a
    [question] key; with a non-empty one the handler raises
    [AttributeError] from formatting the [[]] placeholder, without any draw
    from the generator, and the exception is unhandled: the response is a
    500, none of 200, 400, 404 and 422. *)
Theorem play_quiz_empty_pool (quiz : QuizBody) (w : World)
  (category : QuizCategory) (previous : list Z) :
  qb_quiz_category quiz = Some category ->
  qb_previous_questions quiz = Some previous ->
  pool_of category (w_db w) = [] ->
  (previous = [] ->
   fst (serve (play_quiz quiz) w) = jsonify [("success", JBool true)]
   /\ json_get "question" (body (fst (serve (play_quiz quiz) w))) = None)
  /\ (previous <> [] ->
      fst (play_quiz quiz w) = Raise (PyError "AttributeError")
      /\ w_draws (snd (play_quiz quiz w)) = w_draws w
      /\ status (fst (serve (play_quiz quiz) w)) = 500
      /\ ~ In (status (fst (serve (play_quiz quiz) w))) [200; 400; 404; 422]).
Proof.
  intros Hcat Hprev Hempty.
  destruct (play_quiz_run quiz w category previous Hcat Hprev)
    as [rq [used [n [_ [Hrun [Hle [_ Hnil]]]]]]].
  rewrite Hempty in Hrun, Hle. rewrite (Hnil Hempty) in Hrun.
  assert (Hn : n = O) by (simpl in Hle; lia). subst n.
  unfold serve. rewrite Hrun. unfold quiz_response. split.
  - intros ->. simpl. split; reflexivity.
  - intros Hne. destruct previous as [|i previous]; [congruence|].
    simpl. rewrite Nat.add_0_r. repeat split; trivial. intuition lia.
Qed.

(** An empty database: the first quiz request completes at once, and one
    that claims a served question crashes. *)
Lemma play_quiz_empty_pool_sample :
  fst (serve (play_quiz (mkQuizBody (Some []) (Some (mkQuizCategory 0))))
             (sample_world 0 (fun _ => 0%nat))) =
    jsonify [("success", JBool true)]
  /\ status (fst (serve (play_quiz (mkQuizBody (Some [7]) (Some (mkQuizCategory 0))))
                        (sample_world 0 (fun _ => 0%nat)))) = 500.
Proof.
  split.
  - apply (proj1 (play_quiz_empty_pool
                    (mkQuizBody (Some []) (Some (mkQuizCategory 0)))
                    (sample_world 0 (fun _ => 0%nat)) (mkQuizCategory 0) []
                    eq_refl eq_refl eq_refl) eq_refl).
  - assert (Hne : [7] <> @nil Z) by discriminate.
    apply (proj2 (play_quiz_empty_pool
                    (mkQuizBody (Some [7]) (Some (mkQuizCategory 0)))
                    (sample_world 0 (fun _ => 0%nat)) (mkQuizCategory 0) [7]
                    eq_refl eq_refl eq_refl) Hne).
Defined.

(** C10: the completion check compares lengths only.  There is a request
    whose [previous_questions] has the length of the pool but holds an id
    that is not in the pool: the draw loop has selected a pool question
    that is not in [previous_questions], and the response is still
    [{success: true}] without a [question] key. *)
Theorem play_quiz_completion_by_length_only :
  exists (quiz : QuizBody) (w : World) (category : QuizCategory)
         (previous : list Z) (q : Question),
    qb_quiz_category quiz = Some category
    /\ qb_previous_questions quiz = Some previous
    /\ length previous = length (pool_of category (w_db w))
    /\ (exists i, In i previous
                  /\ ~ In i (map q_id (pool_of category (w_db w))))
    /\ In q (pool_of category (w_db w))
    /\ ~ In (q_id q) previous
    /\ fst (draw_loop (pool_of category (w_db w)) (pool_of category (w_db w))
                      previous None w) = Return (Some q, true)
    /\ fst (serve (play_quiz quiz) w) = jsonify [("success", JBool true)]
    /\ json_get "question" (body (fst (serve (play_quiz quiz) w))) = None.
Proof.
  exists (mkQuizBody (Some [99]) (Some (mkQuizCategory 0))),
         (sample_world 1 (fun _ => 0%nat)), (mkQuizCategory 0), [99],
         (sample_question 1).
  repeat split.
  - exists 99. split; [now left|]. simpl. intros [H|[]]. discriminate.
  - now left.
  - simpl. intros [H|[]]. discriminate.
Qed.

(** * Further properties of the pagination helper *)

Lemma py_slice_segment {A : Type} (l : list A) (start stop : Z) :
  exists before after, l = before ++ py_slice l start stop ++ after.
Proof.
  unfold py_slice.
  set (lo := Z.to_nat (slice_bound (Z.of_nat (length l)) start)).
  set (k := Z.to_nat (slice_bound (Z.of_nat (length l)) stop
                      - slice_bound (Z.of_nat (length l)) start)).
  exists (firstn lo l), (skipn k (skipn lo l)).
  now rewrite (firstn_skipn k), (firstn_skipn lo).
Qed.

Lemma py_slice_In {A : Type} (l : list A) (start stop : Z) (x : A) :
  In x (py_slice l start stop) -> In x l.
Proof.
  intros Hin. destruct (py_slice_segment l start stop) as [b [a Heq]].
  rewrite Heq. apply in_or_app. right. apply in_or_app. now left.
Qed.

Lemma py_slice_window_length {A : Type} (l : list A) (start : Z) :
  (length (py_slice l start (start + 10)) <= 10)%nat.
Proof.
  unfold py_slice. rewrite length_firstn.
  apply Nat.le_trans with (1 := Nat.le_min_l _ _).
  unfold slice_bound.
  destruct (start <? 0) eqn:E1; destruct (start + 10 <? 0) eqn:E2;
    try apply Z.ltb_lt in E1; try apply Z.ltb_ge in E1;
    try apply Z.ltb_lt in E2; try apply Z.ltb_ge in E2; lia.
Qed.

(** X1: whatever integer the page argument is, negative or zero included,
    [paginate_questions] returns at most ten items and they are one
    contiguous run of the formatted selection; page 0 is always empty. *)
Theorem paginate_questions_any_page (request : Request)
  (selection : list Question) :
  (length (paginate_questions request selection) <= 10)%nat
  /\ (exists before after,
        map format selection =
        before ++ paginate_questions request selection ++ after)
  /\ paginate_questions (page_request 0) selection = [].
Proof.
  unfold paginate_questions, QUESTIONS_PER_PAGE. split; [|split].
  - apply py_slice_window_length.
  - apply py_slice_segment.
  - unfold page_request, args_get_page, py_slice, slice_bound. cbn [args_page].
    replace ((0 - 1) * 10 <? 0) with true by reflexivity.
    replace ((0 - 1) * 10 + 10 <? 0) with false by reflexivity.
    rewrite length_map.
    replace (Z.to_nat (Z.min ((0 - 1) * 10 + 10) (Z.of_nat (length selection))
                       - Z.max 0 ((0 - 1) * 10 + Z.of_nat (length selection))))
      with O by lia.
    reflexivity.
Qed.

Lemma paginate_questions_In (request : Request) (selection : list Question)
  (fq : FQuestion) :
  In fq (paginate_questions request selection) ->
  exists q, In q selection /\ fq = format q.
Proof.
  intros Hin. unfold paginate_questions in Hin. apply py_slice_In in Hin.
  apply in_map_iff in Hin. destruct Hin as [q [Heq Hq]]. now exists q.
Qed.

(** * Listing routes *)

Lemma get_questions_run (request : Request) (w : World) :
  serve (get_questions request) w =
  (if (length (paginate_questions request (db_questions (w_db w))) =? 0)%nat
   then error_response 404
   else jsonify [("success", JBool true);
                 ("questions",
                  JQuestions (paginate_questions request (db_questions (w_db w))));
                 ("total_questions",
                  JInt (Z.of_nat (length (db_questions (w_db w)))));
                 ("categories",
                  JCategories
                    (fold_left
                       (fun d category =>
                          dict_set (c_id category) (c_type category) d)
                       (db_categories (w_db w)) []))],
   w).
Proof.
  unfold serve, get_questions, bind, query_all, categories_all.
  now destruct (length (paginate_questions request (db_questions (w_db w))) =? 0)%nat.
Qed.

(** X2: for every page [p >= 1], [GET /questions] never writes; it answers
    404 exactly when the page lies past the data ([N <= 10*(p-1)], an empty
    table included), and otherwise 200 with the ten-item window of the
    table and [total_questions] equal to the size of the whole table, not
    of the page. *)
Theorem get_questions_404_iff_past_data (request : Request) (w : World) :
  1 <= args_get_page request ->
  let p := args_get_page request in
  let rows := db_questions (w_db w) in
  let r := serve (get_questions request) w in
  snd r = w
  /\ (status (fst r) = 404 <-> Z.of_nat (length rows) <= 10 * (p - 1))
  /\ (10 * (p - 1) < Z.of_nat (length rows) ->
      status (fst r) = 200
      /\ body_questions (body (fst r)) =
         firstn 10 (skipn (Z.to_nat ((p - 1) * 10)) (map format rows))
      /\ json_get "total_questions" (body (fst r)) =
         Some (JInt (Z.of_nat (length rows)))).
Proof.
  intros Hp p rows r. subst p rows r. rewrite get_questions_run.
  pose proof (paginate_questions_window request (db_questions (w_db w)) Hp) as Hwin.
  assert (Hlen : Z.of_nat (length (paginate_questions request (db_questions (w_db w)))) =
                 Z.min 10 (Z.max 0 (Z.of_nat (length (db_questions (w_db w)))
                                     - 10 * (args_get_page request - 1)))).
  { rewrite Hwin, length_firstn, length_skipn, length_map. lia. }
  cbn [fst snd]. split; [reflexivity|].
  destruct (length (paginate_questions request (db_questions (w_db w))) =? 0)%nat
    eqn:E.
  - apply Nat.eqb_eq in E. rewrite E in Hlen. split.
    + split; [intros _; lia | reflexivity].
    + intros Hin. lia.
  - apply Nat.eqb_neq in E. split.
    + split; [cbn; discriminate | intros Hout; lia].
    + intros _. split; [reflexivity|]. split; [|reflexivity].
      unfold body_questions. cbn. exact Hwin.
Qed.

(** Twelve questions: page 2 is a 200, page 3 a 404. *)
Lemma get_questions_pages_of_12 :
  status (fst (serve (get_questions (page_request 2))
                     (sample_world 12 (fun _ => 0%nat)))) = 200
  /\ status (fst (serve (get_questions (page_request 3))
                        (sample_world 12 (fun _ => 0%nat)))) = 404.
Proof.
  split.
  - apply (proj2 (proj2 (get_questions_404_iff_past_data (page_request 2)
                           (sample_world 12 (fun _ => 0%nat)) ltac:(cbn; lia)))).
    cbn. lia.
  - apply (proj2 (proj1 (proj2 (get_questions_404_iff_past_data (page_request 3)
                           (sample_world 12 (fun _ => 0%nat)) ltac:(cbn; lia))))).
    cbn. lia.
Defined.

(** ** The dict of categories *)

Lemma dict_set_keys (k : Z) (v : string) (d : list (Z * string)) (k' : Z) :
  In k' (map fst (dict_set k v d)) <-> k' = k \/ In k' (map fst d).
Proof.
  induction d as [|[k0 v0] d IH]; simpl.
  - intuition.
  - destruct (k0 =? k) eqn:E; simpl.
    + apply Z.eqb_eq in E. subst k0. intuition.
    + rewrite IH. intuition.
Qed.

Lemma dict_set_NoDup (k : Z) (v : string) (d : list (Z * string)) :
  NoDup (map fst d) -> NoDup (map fst (dict_set k v d)).
Proof.
  induction d as [|[k0 v0] d IH]; simpl; intros Hnd.
  - constructor; [intros [] | constructor].
  - inversion Hnd as [|? ? Hnotin Hrest]; subst.
    destruct (k0 =? k) eqn:E; simpl.
    + apply Z.eqb_eq in E. subst k0. now constructor.
    + apply Z.eqb_neq in E. constructor; [|now apply IH].
      rewrite dict_set_keys. intros [Heq|Hin]; [congruence | contradiction].
Qed.

Lemma dict_get_set_same (k : Z) (v : string) (d : list (Z * string)) :
  dict_get k (dict_set k v d) = Some v.
Proof.
  induction d as [|[k0 v0] d IH]; simpl.
  - now rewrite Z.eqb_refl.
  - destruct (k0 =? k) eqn:E; simpl.
    + now rewrite Z.eqb_refl.
    + now rewrite E.
Qed.

Lemma dict_get_set_other (k k' : Z) (v : string) (d : list (Z * string)) :
  k' <> k -> dict_get k' (dict_set k v d) = dict_get k' d.
Proof.
  intros Hne. induction d as [|[k0 v0] d IH]; simpl.
  - apply Z.eqb_neq in Hne. rewrite Z.eqb_sym in Hne. now rewrite Hne.
  - destruct (k0 =? k) eqn:E; simpl.
    + apply Z.eqb_eq in E. subst k0.
      assert (Hkk : (k =? k') = false) by (apply Z.eqb_neq; congruence).
      now rewrite Hkk.
    + destruct (k0 =? k'); trivial.
Qed.

Lemma build_keys (categories : list Category) (d : list (Z * string)) (k : Z) :
  In k (map fst (build categories d)) <->
  In k (map fst d) \/ In k (map c_id categories).
Proof.
  revert d. induction categories as [|c cs IH]; intros d; simpl.
  - intuition.
  - rewrite IH, dict_set_keys. intuition.
Qed.

Lemma build_NoDup (categories : list Category) (d : list (Z * string)) :
  NoDup (map fst d) -> NoDup (map fst (build categories d)).
Proof.
  revert d. induction categories as [|c cs IH]; intros d Hnd; simpl; trivial.
  apply IH. now apply dict_set_NoDup.
Qed.

Lemma build_get_other (categories : list Category) (d : list (Z * string))
  (k : Z) :
  ~ In k (map c_id categories) ->
  dict_get k (build categories d) = dict_get k d.
Proof.
  revert d. induction categories as [|c cs IH]; intros d Hnotin; simpl; trivial.
  simpl in Hnotin. rewrite IH by tauto.
  apply dict_get_set_other. intros Heq. apply Hnotin. left. congruence.
Qed.

Lemma build_get (categories : list Category) (d : list (Z * string))
  (c : Category) :
  NoDup (map c_id categories) -> In c categories ->
  dict_get (c_id c) (build categories d) = Some (c_type c).
Proof.
  revert d. induction categories as [|c0 cs IH]; intros d Hnd Hin; simpl.
  - destruct Hin.
  - inversion Hnd as [|? ? Hnotin Hrest]; subst. destruct Hin as [Heq|Hin].
    + subst c0. rewrite build_get_other by assumption. apply dict_get_set_same.
    + now apply IH.
Qed.

Lemma build_nonempty (categories : list Category) (d : list (Z * string)) :
  d <> [] \/ categories <> [] -> build categories d <> [].
Proof.
  revert d. induction categories as [|c cs IH]; intros d Hne; simpl.
  - destruct Hne; congruence.
  - apply IH. left. destruct d as [|[k v] d]; simpl; [discriminate|].
    destruct (k =? c_id c); discriminate.
Qed.

(** X3: [GET /categories] never writes, and it answers 404 exactly when
    the table of categories is empty; otherwise the response is a 200. *)
Theorem get_categories_404_iff_empty (w : World) :
  snd (serve get_categories w) = w
  /\ (status (fst (serve get_categories w)) = 404 <-> db_categories (w_db w) = [])
  /\ (db_categories (w_db w) <> [] ->
      status (fst (serve get_categories w)) = 200).
Proof.
  unfold serve, get_categories, bind, categories_all.
  destruct (db_categories (w_db w)) as [|c cs] eqn:Ecats.
  - cbn. repeat split; congruence.
  - assert (Hcs : c :: cs <> []) by discriminate.
    pose proof (build_nonempty (c :: cs) [] (or_intror Hcs)) as Hne.
    destruct (build (c :: cs) []) as [|kv d] eqn:Ed; [congruence|].
    cbn. repeat split; intros; congruence.
Qed.

(** X4: the [categories] object of a [GET /categories] response holds each
    key once, its keys are exactly the ids of the table, and, the ids of
    the table being distinct, every category is found under its id with
    its own type. *)
Theorem get_categories_dict (w : World) (d : list (Z * string)) :
  json_get "categories" (body (fst (serve get_categories w))) =
    Some (JCategories d) ->
  NoDup (map fst d)
  /\ (forall k, In k (map fst d) <-> In k (map c_id (db_categories (w_db w))))
  /\ (NoDup (map c_id (db_categories (w_db w))) ->
      forall c, In c (db_categories (w_db w)) ->
                dict_get (c_id c) d = Some (c_type c)).
Proof.
  unfold serve, get_categories, bind, categories_all.
  destruct (length (build (db_categories (w_db w)) []) =? 0)%nat; cbn.
  - discriminate.
  - intros Hd. injection Hd as <-. split; [|split].
    + apply build_NoDup. constructor.
    + intros k. rewrite build_keys. simpl. tauto.
    + intros Hnd c Hc. now apply build_get.
Qed.

(** The three sample categories: "Art" is found under id 2. *)
Lemma get_categories_dict_sample :
  dict_get 2 [(1, "Science"); (2, "Art"); (3, "Geography")] = Some "Art".
Proof.
  assert (Hnd : NoDup (map c_id sample_categories)).
  { repeat constructor; simpl; intuition discriminate. }
  apply (proj2 (proj2 (get_categories_dict (sample_world 0 (fun _ => 0%nat))
                         [(1, "Science"); (2, "Art"); (3, "Geography")]
                         eq_refl))
           Hnd (mkCategory 2 "Art")).
  simpl. tauto.
Defined.


(** * Further properties of deletion and creation *)

Lemma filter_id_unique (rows : list Question) (id : Z) :
  NoDup (map q_id rows) -> In id (map q_id rows) ->
  exists q, filter (fun x => q_id x =? id) rows = [q].
Proof.
  induction rows as [|x rows IH]; simpl; intros Hnd Hin; [destruct Hin|].
  inversion Hnd as [|? ? Hnotin Hrest]; subst.
  destruct (q_id x =? id) eqn:E.
  - apply Z.eqb_eq in E. exists x. f_equal. apply filter_none.
    intros y Hy. apply Z.eqb_neq. intros Heq. apply Hnotin.
    rewrite E, <- Heq. now apply in_map.
  - apply Z.eqb_neq in E. destruct Hin as [Heq|Hin]; [congruence|].
    now apply IH.
Qed.

Lemma filter_split_length {A : Type} (p : A -> bool) (l : list A) :
  (length (filter p l) + length (filter (fun x => negb (p x)) l))%nat = length l.
Proof.
  induction l as [|x l IH]; simpl; trivial.
  destruct (p x); simpl; lia.
Qed.


(** X7: the ids of the table being distinct, deleting an id of the table
    answers 200 with [deleted] set to it, removes that row and no other,
    and a second deletion of the same id answers 422. *)
Theorem delete_question_removes_row (request : Request) (question_id : Z)
  (w : World) :
  NoDup (map q_id (db_questions (w_db w))) ->
  In question_id (map q_id (db_questions (w_db w))) ->
  let rows := db_questions (w_db w) in
  let r := serve (delete_question request question_id) w in
  let rows' := db_questions (w_db (snd r)) in
  status (fst r) = 200
  /\ json_get "deleted" (body (fst r)) = Some (JInt question_id)
  /\ rows' = filter (fun x => negb (q_id x =? question_id)) rows
  /\ ~ In question_id (map q_id rows')
  /\ (length rows' + 1)%nat = length rows
  /\ status (fst (serve (delete_question request question_id) (snd r))) = 422.
Proof.
  intros Hnd Hin rows r rows'. subst rows r rows'.
  destruct (filter_id_unique _ _ Hnd Hin) as [q Hone].
  rewrite (delete_question_present request question_id q w Hone). cbn.
  assert (Hgone : ~ In question_id
                    (map q_id (filter (fun x => negb (q_id x =? question_id))
                                      (db_questions (w_db w))))).
  { rewrite in_map_iff. intros [x [Hid Hx]]. apply filter_In in Hx.
    destruct Hx as [_ Hx]. rewrite Hid, Z.eqb_refl in Hx. discriminate. }
  split; [reflexivity|]. split; [reflexivity|]. split; [reflexivity|].
  split; [exact Hgone|]. split.
  - pose proof (filter_split_length (fun x => q_id x =? question_id)
                  (db_questions (w_db w))) as Hlen.
    rewrite Hone in Hlen. simpl in Hlen. lia.
  - rewrite delete_question_absent; [reflexivity|].
    cbn. intros x Hx Heq. apply Hgone. apply in_map_iff. now exists x.
Qed.

(** Deleting question 2 of the sample data, twice. *)
Lemma delete_question_twice_sample :
  status (fst (serve (delete_question (page_request 1) 2)
                (snd (serve (delete_question (page_request 1) 2)
                            (sample_world 3 (fun _ => 0%nat)))))) = 422.
Proof.
  assert (Hnd : NoDup (map q_id (db_questions
                                   (w_db (sample_world 3 (fun _ => 0%nat)))))).
  { cbv. repeat (constructor; [simpl; intuition discriminate|]). constructor. }
  assert (Hin : In 2 (map q_id (db_questions
                                  (w_db (sample_world 3 (fun _ => 0%nat)))))).
  { simpl. tauto. }
  exact (proj2 (proj2 (proj2 (proj2 (proj2
           (delete_question_removes_row (page_request 1) 2
              (sample_world 3 (fun _ => 0%nat)) Hnd Hin)))))).
Defined.

Lemma filter_all {A : Type} (p : A -> bool) (l : list A) :
  (forall x, In x l -> p x = true) -> filter p l = l.
Proof.
  induction l as [|x l IH]; intros Hp; simpl; trivial.
  rewrite (Hp x) by now left. f_equal. apply IH. intros y Hy. apply Hp. now right.
Qed.

(** X8: every [POST /questions] appends exactly one row, built from the
    four values of the body under the next primary key, whether it answers
    200 or 422; it answers 200 exactly when the four fields are present,
    and then [created] is the id of that row and [total_questions] the
    former count plus one. *)
Theorem create_question_inserts_once (request : Request) (payload : CreateBody)
  (w : World) :
  let rows := db_questions (w_db w) in
  let row := mkQuestion (db_next_id (w_db w)) (cb_question payload)
                        (cb_answer payload) (cb_category payload)
                        (cb_difficulty payload) in
  let r := serve (create_question request payload) w in
  db_questions (w_db (snd r)) = rows ++ [row]
  /\ db_categories (w_db (snd r)) = db_categories (w_db w)
  /\ (status (fst r) = 200 \/ fst r = error_response 422)
  /\ (status (fst r) = 200 <->
      cb_question payload <> None /\ cb_answer payload <> None
      /\ cb_difficulty payload <> None /\ cb_category payload <> None)
  /\ (status (fst r) = 200 ->
      json_get "created" (body (fst r)) = Some (JInt (q_id row))
      /\ json_get "total_questions" (body (fst r)) =
         Some (JInt (Z.of_nat (length rows) + 1))).
Proof.
  intros rows row r. subst rows row r.
  unfold serve, create_question, try_except, bind, question_insert.
  destruct payload as [[qt|] [an|] [di|] [ca|]]; cbn;
    (split; [reflexivity|]); (split; [reflexivity|]).
  1: { split; [now left|]. split.
       - split; [intros _; repeat split; discriminate | reflexivity].
       - intros _. split; [reflexivity|].
         unfold json_len. rewrite length_app, Nat2Z.inj_add. reflexivity. }
  all: split; [now right|]; split; [|discriminate];
    split; [discriminate | intros [H1 [H2 [H3 H4]]]; congruence].
Qed.

(** X9: when no row carries the next primary key, a [POST /questions]
    followed by the deletion of the key it used answers 200 to the
    deletion and leaves the rows of the table as they were before the two
    requests; this also removes the row a 422 creation has left. *)
Theorem create_then_delete_restores_rows (request request' : Request)
  (body : CreateBody) (w : World) :
  (forall q, In q (db_questions (w_db w)) -> q_id q <> db_next_id (w_db w)) ->
  let w1 := snd (serve (create_question request body) w) in
  let r2 := serve (delete_question request' (db_next_id (w_db w))) w1 in
  status (fst r2) = 200
  /\ db_questions (w_db (snd r2)) = db_questions (w_db w).
Proof.
  intros Hfresh w1 r2. subst r2.
  destruct (create_question_inserts_once request body w)
    as [Hrows _]. fold w1 in Hrows.
  set (row := mkQuestion (db_next_id (w_db w)) (cb_question body)
                         (cb_answer body) (cb_category body)
                         (cb_difficulty body)) in *.
  assert (Hone : filter (fun x => q_id x =? db_next_id (w_db w))
                        (db_questions (w_db w1)) = [row]).
  { rewrite Hrows, filter_app, filter_none.
    - simpl. now rewrite Z.eqb_refl.
    - intros x Hx. apply Z.eqb_neq. now apply Hfresh. }
  rewrite (delete_question_present request' _ row w1 Hone). cbn.
  split; [reflexivity|].
  rewrite Hrows, filter_app, filter_all.
  - simpl. rewrite Z.eqb_refl. simpl. apply app_nil_r.
  - intros x Hx. apply negb_true_iff, Z.eqb_neq. now apply Hfresh.
Qed.

(** A creation without [answer] on the sample data, undone by deleting
    question 4. *)
Lemma create_then_delete_sample :
  map q_id (db_questions (w_db (snd
    (serve (delete_question (page_request 1) 4)
       (snd (serve (create_question (page_request 1)
                      (mkCreateBody (Some "Who?") None (Some 2) (Some 1)))
                   (sample_world 3 (fun _ => 0%nat)))))))) = [1; 2; 3].
Proof.
  assert (Hfresh : forall q,
             In q (db_questions (w_db (sample_world 3 (fun _ => 0%nat)))) ->
             q_id q <> db_next_id (w_db (sample_world 3 (fun _ => 0%nat)))).
  { cbv. intros q [H|[H|[H|[]]]]; subst q; discriminate. }
  pose proof (create_then_delete_restores_rows (page_request 1) (page_request 1)
                (mkCreateBody (Some "Who?") None (Some 2) (Some 1))
                (sample_world 3 (fun _ => 0%nat)) Hfresh) as [_ Hrows].
  change 4 with (db_next_id (w_db (sample_world 3 (fun _ => 0%nat)))).
  rewrite Hrows. reflexivity.
Defined.

(** * Further properties of the search *)

(** X10: for every non-empty [searchTerm], whatever [ilike] the database
    implements and whatever the page, [POST /questions/search] never
    writes and answers 200; [total_questions] counts all the rows whose
    text matches ["%term%"], [questions] is the requested page of them,
    and every question returned has a text that matches; rows without a
    text are never returned. *)
Theorem search_questions_sound (ilike : string -> string -> bool)
  (request : Request) (payload : SearchBody) (w : World) (term : string) :
  sb_searchTerm payload = Some term -> term <> "" ->
  let pattern := String.append "%" (String.append term "%") in
  let matches := filter (question_ilike ilike pattern) (db_questions (w_db w)) in
  let r := serve (search_questions ilike request payload) w in
  snd r = w
  /\ status (fst r) = 200
  /\ json_get "total_questions" (body (fst r)) =
     Some (JInt (Z.of_nat (length matches)))
  /\ body_questions (body (fst r)) = paginate_questions request matches
  /\ (forall fq, In fq (body_questions (body (fst r))) ->
        exists text, f_question fq = Some text /\ ilike pattern text = true).
Proof.
  intros Hterm Hne pattern matches r. subst pattern matches r.
  unfold serve, search_questions, bind, query_filter. rewrite Hterm.
  assert (Htruthy : truthy (Some term) = true).
  { simpl. apply negb_true_iff, String.eqb_neq. exact Hne. }
  rewrite Htruthy. cbn [fst snd status body].
  split; [reflexivity|]. split; [reflexivity|]. split; [reflexivity|].
  split; [reflexivity|].
  unfold body_questions. cbn [json_get String.eqb Ascii.eqb Bool.eqb].
  intros fq Hfq. apply paginate_questions_In in Hfq.
  destruct Hfq as [q [Hq ->]]. apply filter_In in Hq. destruct Hq as [_ Hq].
  unfold question_ilike in Hq. cbn [format f_question].
  destruct (q_question q) as [text|]; [|discriminate]. now exists text.
Qed.

(** Searching the sample data for "CAPITAL": three matches. *)
Lemma search_questions_capital_sample :
  json_get "total_questions"
    (body (fst (serve (search_questions sql_ilike (page_request 1)
                                        (mkSearchBody (Some "CAPITAL")))
                      (sample_world 3 (fun _ => 0%nat))))) = Some (JInt 3).
Proof.
  assert (Hne : "CAPITAL" <> "") by discriminate.
  exact (proj1 (proj2 (proj2
           (search_questions_sound sql_ilike (page_request 1)
              (mkSearchBody (Some "CAPITAL"))
              (sample_world 3 (fun _ => 0%nat)) "CAPITAL" eq_refl Hne)))).
Defined.

(** * Further properties of the quiz *)

(** What the draw loop has seen when it stops: every draw but the last
    hit a served question; with [used] the last draw is the question
    returned and it has not been served; without [used] the loop has gone
    through the whole iteration and every draw hit a served question. *)
Lemma draw_loop_trace (iter questions : list Question) (previous : list Z) :
  questions <> [] ->
  forall (rq : option Question) (w : World),
  exists rq' used n,
    draw_loop iter questions previous rq w =
      (Return (rq', used), mkWorld (w_db w) (w_tape w) (w_draws w + n)%nat)
    /\ (rq' = rq \/ exists q, rq' = Some q /\ In q questions)
    /\ (used = true ->
        exists q, rq' = Some q /\ id_in (q_id q) previous = false)
    /\ (used = false ->
        n = length iter
        /\ forall k, (k < length iter)%nat ->
             exists q, nth_draw questions w k = Some q
                       /\ id_in (q_id q) previous = true).
Proof.
  intros Hq. induction iter as [|x iter IH]; intros rq w.
  - exists rq, false, O. simpl. unfold ret. rewrite Nat.add_0_r.
    destruct w; simpl. split; [reflexivity|]. split; [now left|].
    split; [discriminate|]. intros _. split; [reflexivity|]. intros k Hk. lia.
  - assert (Hlen : length questions <> O) by (destruct questions; simpl; congruence).
    simpl draw_loop. unfold bind at 1. rewrite randrange_run by assumption.
    destruct (nth_error questions
                (Nat.modulo (w_tape w (w_draws w)) (length questions)))
      as [q|] eqn:Enth.
    2: { apply nth_error_None in Enth.
         pose proof (Nat.mod_upper_bound (w_tape w (w_draws w))
                       (length questions) Hlen). lia. }
    unfold bind at 1, list_index. rewrite Enth. unfold ret at 1.
    destruct (id_in (q_id q) previous) eqn:Eseen; cbn [negb].
    + destruct (IH (Some q) (mkWorld (w_db w) (w_tape w) (S (w_draws w))))
        as [rq' [used [n [Hrun [Hmem [Hused Hnot]]]]]].
      cbn [w_db w_tape w_draws] in Hrun.
      exists rq', used, (S n). rewrite Hrun, Nat.add_succ_r.
      split; [reflexivity|]. split.
      { destruct Hmem as [->|Hmem]; [|now right].
        right. exists q. split; [reflexivity|]. now apply nth_error_In in Enth. }
      split; [exact Hused|]. intros Hfalse.
      destruct (Hnot Hfalse) as [Hn Hall]. split; [simpl; lia|].
      intros k Hk. destruct k as [|k].
      * exists q. unfold nth_draw. rewrite Nat.add_0_r. now split.
      * destruct (Hall k) as [q' [Hd Hs]]; [simpl in Hk; lia|].
        exists q'. split; [|exact Hs].
        unfold nth_draw in *. cbn [w_tape w_draws] in Hd.
        rewrite Nat.add_succ_r. exact Hd.
    + exists (Some q), true, 1%nat. unfold ret. rewrite Nat.add_1_r.
      split; [reflexivity|]. split.
      { right. exists q. split; [reflexivity|]. now apply nth_error_In in Enth. }
      split; [|discriminate]. intros _. now exists q.
Qed.

Lemma draw_loop_some (x : Question) (iter questions : list Question)
  (previous : list Z) :
  questions <> [] ->
  forall (rq : option Question) (w : World),
  exists q used w',
    draw_loop (x :: iter) questions previous rq w = (Return (Some q, used), w')
    /\ In q questions.
Proof.
  intros Hq rq w.
  assert (Hlen : length questions <> O) by (destruct questions; simpl; congruence).
  simpl draw_loop. unfold bind at 1. rewrite randrange_run by assumption.
  destruct (list_index_mod questions (w_tape w (w_draws w))
              (mkWorld (w_db w) (w_tape w) (S (w_draws w))) Hq)
    as [q [Hin Hidx]].
  unfold bind at 1. rewrite Hidx.
  destruct (id_in (q_id q) previous); cbn [negb].
  - destruct (draw_loop_trace iter questions previous Hq (Some q)
                (mkWorld (w_db w) (w_tape w) (S (w_draws w))))
      as [rq' [used [n [Hrun [Hmem _]]]]].
    rewrite Hrun. destruct Hmem as [->|[q' [-> Hin']]].
    + now exists q, used, (mkWorld (w_db w) (w_tape w) (S (w_draws w) + n)%nat).
    + now exists q', used, (mkWorld (w_db w) (w_tape w) (S (w_draws w) + n)%nat).
  - now exists q, true, (mkWorld (w_db w) (w_tape w) (S (w_draws w))).
Qed.

(** The run of [play_quiz] with both inputs present, with what its draw
    loop has established. *)
Lemma play_quiz_outcome (quiz : QuizBody) (w : World)
  (category : QuizCategory) (previous : list Z) :
  qb_quiz_category quiz = Some category ->
  qb_previous_questions quiz = Some previous ->
  let pool := pool_of category (w_db w) in
  exists rq used n,
    play_quiz quiz w =
      quiz_response previous pool rq
                    (mkWorld (w_db w) (w_tape w) (w_draws w + n)%nat)
    /\ (pool = [] -> rq = None)
    /\ (pool <> [] -> exists q, rq = Some q /\ In q pool)
    /\ (used = true ->
        exists q, rq = Some q /\ id_in (q_id q) previous = false)
    /\ (used = false -> pool <> [] ->
        forall k, (k < length pool)%nat ->
          exists q, nth_draw pool w k = Some q
                    /\ id_in (q_id q) previous = true).
Proof.
  intros Hcat Hprev pool.
  destruct (play_quiz_run quiz w category previous Hcat Hprev)
    as [rq [used [n [Hloop [Hrun [_ [_ Hnil]]]]]]].
  fold pool in Hloop, Hrun, Hnil.
  exists rq, used, n. split; [exact Hrun|]. split; [exact Hnil|].
  destruct pool as [|x rest] eqn:Epool.
  - split; [congruence|]. split; [|congruence].
    intros Hused. simpl in Hloop. unfold ret in Hloop. congruence.
  - assert (Hne : x :: rest <> []) by discriminate.
    destruct (draw_loop_some x rest (x :: rest) previous Hne None w)
      as [q [used1 [w1 [Hsome Hin]]]].
    destruct (draw_loop_trace (x :: rest) (x :: rest) previous Hne None w)
      as [rq2 [used2 [n2 [Htrace [_ [Hused Hnot]]]]]].
    rewrite Hloop in Hsome, Htrace.
    injection Hsome as Hrq _ _. injection Htrace as Hrq2 Hused2 _.
    subst rq2 used2. split; [|split].
    + intros _. exists q. now split.
    + exact Hused.
    + intros Hfalse _. now apply Hnot.
Qed.

Lemma quiz_response_world (previous : list Z) (pool : list Question)
  (rq : option Question) (w : World) :
  snd (quiz_response previous pool rq w) = w.
Proof.
  unfold quiz_response.
  destruct (length previous =? length pool)%nat; [reflexivity|].
  now destruct rq.
Qed.

(** X11: [POST /quizzes] never writes to the database.  It answers 400,
    without any draw, when [quiz_category] or [previous_questions] is
    missing; with both present it answers 200 or 500, and 500 exactly when
    the pool is empty and [previous_questions] is not. *)
Theorem play_quiz_status (quiz : QuizBody) (w : World) :
  let r := serve (play_quiz quiz) w in
  w_db (snd r) = w_db w
  /\ (qb_quiz_category quiz = None \/ qb_previous_questions quiz = None ->
      r = (error_response 400, w))
  /\ (forall category previous,
        qb_quiz_category quiz = Some category ->
        qb_previous_questions quiz = Some previous ->
        (status (fst r) = 200 \/ status (fst r) = 500)
        /\ (status (fst r) = 500 <->
            pool_of category (w_db w) = [] /\ previous <> [])).
Proof.
  intros r. subst r.
  destruct (qb_quiz_category quiz) as [category|] eqn:Hcat;
    destruct (qb_previous_questions quiz) as [previous|] eqn:Hprev.
  2-4: unfold serve, play_quiz; rewrite Hcat; rewrite ?Hprev; cbn;
    (split; [reflexivity|]); (split; [reflexivity|]);
    intros c p Hc Hp; discriminate.
  destruct (play_quiz_outcome quiz w category previous Hcat Hprev)
    as [rq [used [n [Hrun [Hnil [Hsome _]]]]]].
  assert (Hworld : snd (play_quiz quiz w) =
                   mkWorld (w_db w) (w_tape w) (w_draws w + n)%nat)
    by (rewrite Hrun; apply quiz_response_world).
  split; [|split].
  - unfold serve. destruct (play_quiz quiz w) as [[resp|[code|name]] w'];
      cbn [fst snd] in *; subst w'; reflexivity.
  - intros [H|H]; discriminate.
  - intros c p Hc Hp. injection Hc as <-. injection Hp as <-.
    unfold serve. rewrite Hrun. unfold quiz_response.
    destruct (pool_of category (w_db w)) as [|x rest] eqn:Epool.
    + rewrite (Hnil eq_refl).
      destruct previous as [|i previous]; cbn.
      * split; [now left|]. split; [discriminate | intros [_ H]; congruence].
      * split; [now right|]. split; [intros _; split; [reflexivity|discriminate]
                                    | reflexivity].
    + destruct Hsome as [q [-> _]]; [discriminate|].
      destruct (length previous =? length (x :: rest))%nat; cbn;
        (split; [now left|]); (split; [discriminate | intros [H _]; discriminate]).
Qed.

(** X12: with both inputs present, a question returned by [POST /quizzes]
    is the formatted record of a question of the pool; for a category id
    other than 0 it therefore belongs to the requested category. *)
Theorem play_quiz_question_from_pool (quiz : QuizBody) (w : World)
  (category : QuizCategory) (previous : list Z) (fq : FQuestion) :
  qb_quiz_category quiz = Some category ->
  qb_previous_questions quiz = Some previous ->
  json_get "question" (body (fst (serve (play_quiz quiz) w))) =
    Some (JQuestion fq) ->
  (exists q, In q (pool_of category (w_db w)) /\ fq = format q)
  /\ (qc_id category <> 0 -> f_category fq = Some (qc_id category)).
Proof.
  intros Hcat Hprev Hresp.
  destruct (play_quiz_outcome quiz w category previous Hcat Hprev)
    as [rq [used [n [Hrun [Hnil [Hsome _]]]]]].
  unfold serve in Hresp. rewrite Hrun in Hresp. unfold quiz_response in Hresp.
  assert (Hq : exists q, In q (pool_of category (w_db w)) /\ fq = format q).
  { destruct (length previous =? length (pool_of category (w_db w)))%nat;
      [cbn in Hresp; discriminate|].
    destruct (pool_of category (w_db w)) as [|x rest] eqn:Epool.
    - rewrite (Hnil eq_refl) in Hresp. cbn in Hresp. discriminate.
    - destruct Hsome as [q [-> Hin]]; [discriminate|].
      cbn in Hresp. injection Hresp as <-. now exists q. }
  split; [exact Hq|]. intros Hc. destruct Hq as [q [Hin ->]].
  unfold pool_of in Hin. apply Z.eqb_neq in Hc. rewrite Hc in Hin.
  apply filter_In in Hin. destruct Hin as [_ Hin]. cbn.
  destruct (q_category q) as [c|]; [|discriminate].
  apply Z.eqb_eq in Hin. now subst c.
Qed.

(** A quiz in category 3 over the sample data returns a question of
    category 3. *)
Lemma play_quiz_question_from_pool_sample :
  f_category (format (sample_question 1)) = Some 3.
Proof.
  apply (proj2 (play_quiz_question_from_pool
                  (mkQuizBody (Some []) (Some (mkQuizCategory 3)))
                  (sample_world 2 (fun _ => 0%nat)) (mkQuizCategory 3) []
                  (format (sample_question 1)) eq_refl eq_refl eq_refl)).
  discriminate.
Defined.

(** X13: with both inputs present, [POST /quizzes] returns a question
    whose id is in [previous_questions] only when every one of the
    [len(pool)] draws of the loop has hit a question already served. *)
Theorem play_quiz_seen_only_after_all_draws_seen (quiz : QuizBody) (w : World)
  (category : QuizCategory) (previous : list Z) (fq : FQuestion) :
  qb_quiz_category quiz = Some category ->
  qb_previous_questions quiz = Some previous ->
  json_get "question" (body (fst (serve (play_quiz quiz) w))) =
    Some (JQuestion fq) ->
  id_in (f_id fq) previous = true ->
  forall k, (k < length (pool_of category (w_db w)))%nat ->
    exists q, nth_draw (pool_of category (w_db w)) w k = Some q
              /\ id_in (q_id q) previous = true.
Proof.
  intros Hcat Hprev Hresp Hseen.
  destruct (play_quiz_outcome quiz w category previous Hcat Hprev)
    as [rq [used [n [Hrun [Hnil [_ [Hused Hnot]]]]]]].
  unfold serve in Hresp. rewrite Hrun in Hresp. unfold quiz_response in Hresp.
  destruct (length previous =? length (pool_of category (w_db w)))%nat;
    [cbn in Hresp; discriminate|].
  destruct rq as [q|]; [|cbn in Hresp; discriminate].
  cbn in Hresp. injection Hresp as <-. cbn in Hseen.
  destruct used.
  - destruct (Hused eq_refl) as [q' [Hq' Hunseen]].
    injection Hq' as <-. congruence.
  - apply Hnot; [reflexivity|]. intros Hempty.
    specialize (Hnil Hempty). discriminate.
Qed.

(** Two questions, question 1 served, both draws on index 0: question 1
    comes back, and indeed both draws hit it. *)
Lemma play_quiz_seen_sample :
  exists q, nth_draw (sample_questions 2) (sample_world 2 (fun _ => 0%nat)) 1
            = Some q
            /\ id_in (q_id q) [1] = true.
Proof.
  apply (play_quiz_seen_only_after_all_draws_seen
           (mkQuizBody (Some [1]) (Some (mkQuizCategory 0)))
           (sample_world 2 (fun _ => 0%nat)) (mkQuizCategory 0) [1]
           (format (sample_question 1)) eq_refl eq_refl eq_refl eq_refl 1%nat).
  simpl. lia.
Defined.

Lemma draw_loop_first_unseen (x : Question) (iter questions : list Question)
  (previous : list Z) (rq : option Question) (w : World) (q : Question) :
  nth_draw questions w 0 = Some q ->
  id_in (q_id q) previous = false ->
  draw_loop (x :: iter) questions previous rq w =
  (Return (Some q, true), mkWorld (w_db w) (w_tape w) (S (w_draws w))).
Proof.
  intros Hdraw Hunseen.
  unfold nth_draw in Hdraw. rewrite Nat.add_0_r in Hdraw.
  assert (Hlen : length questions <> O).
  { destruct questions; [|simpl; discriminate].
    destruct (Nat.modulo _ _) in Hdraw; discriminate. }
  simpl draw_loop. unfold bind at 1. rewrite randrange_run by assumption.
  unfold bind at 1, list_index. rewrite Hdraw. unfold ret at 1.
  rewrite Hunseen. reflexivity.
Qed.

(** X14: with both inputs present and the length of [previous_questions]
    different from the pool size, when the first draw picks a question
    that has not been served the loop stops there: the response is 200
    with that question, after exactly one draw. *)
Theorem play_quiz_first_draw_unseen (quiz : QuizBody) (w : World)
  (category : QuizCategory) (previous : list Z) (q : Question) :
  qb_quiz_category quiz = Some category ->
  qb_previous_questions quiz = Some previous ->
  length previous <> length (pool_of category (w_db w)) ->
  nth_draw (pool_of category (w_db w)) w 0 = Some q ->
  id_in (q_id q) previous = false ->
  serve (play_quiz quiz) w =
  (jsonify [("success", JBool true); ("question", JQuestion (format q))],
   mkWorld (w_db w) (w_tape w) (S (w_draws w))).
Proof.
  intros Hcat Hprev Hlen Hdraw Hunseen.
  unfold serve, play_quiz. rewrite Hcat, Hprev.
  unfold bind at 1. rewrite quiz_pool_run.
  set (pool := pool_of category (w_db w)) in *.
  assert (Hiter : exists x rest, pool = x :: rest).
  { destruct pool as [|x rest]; [|now exists x, rest].
    unfold nth_draw in Hdraw. destruct (Nat.modulo _ _) in Hdraw; discriminate. }
  destruct Hiter as [x [rest Hiter]].
  unfold bind at 1. rewrite Hiter at 1.
  rewrite (draw_loop_first_unseen x rest pool previous None w q Hdraw Hunseen).
  cbn [fst]. apply Nat.eqb_neq in Hlen. rewrite Hlen. reflexivity.
Qed.

(** The first quiz request over the sample data. *)
Lemma play_quiz_first_draw_sample :
  serve (play_quiz (mkQuizBody (Some []) (Some (mkQuizCategory 0))))
        (sample_world 3 (fun _ => 4%nat)) =
  (jsonify [("success", JBool true);
            ("question", JQuestion (format (sample_question 2)))],
   mkWorld (w_db (sample_world 3 (fun _ => 4%nat))) (fun _ => 4%nat) 1).
Proof.
  apply (play_quiz_first_draw_unseen
           (mkQuizBody (Some []) (Some (mkQuizCategory 0)))
           (sample_world 3 (fun _ => 4%nat)) (mkQuizCategory 0) []
           (sample_question 2) eq_refl eq_refl);
    [simpl; discriminate | reflexivity | reflexivity].
Defined.

(** * Negative pages *)

(** X15: a page number [p <= -1] is not rejected: the two negative bounds
    of the slice count from the end of the list, so the page is the window
    [max 0 (N - 10*(1-p)), max 0 (N + 10*p)) of the [N] formatted items; it
    is non-empty exactly when [N > -10*p], and [GET /questions] then
    answers 200. *)
Theorem paginate_questions_negative_pages (request : Request)
  (selection : list Question) :
  args_get_page request <= -1 ->
  let p := args_get_page request in
  let N := Z.of_nat (length selection) in
  let lo := Z.max 0 (N - 10 * (1 - p)) in
  let hi := Z.max 0 (N + 10 * p) in
  paginate_questions request selection =
    firstn (Z.to_nat (hi - lo)) (skipn (Z.to_nat lo) (map format selection))
  /\ (paginate_questions request selection <> [] <-> - 10 * p < N)
  /\ (- 10 * p < N ->
      forall w, db_questions (w_db w) = selection ->
                status (fst (serve (get_questions request) w)) = 200).
Proof.
  intros Hp p N lo hi. subst p N lo hi.
  assert (Hwin : paginate_questions request selection =
    firstn (Z.to_nat (Z.max 0 (Z.of_nat (length selection)
                               + 10 * args_get_page request)
                      - Z.max 0 (Z.of_nat (length selection)
                                 - 10 * (1 - args_get_page request))))
           (skipn (Z.to_nat (Z.max 0 (Z.of_nat (length selection)
                                      - 10 * (1 - args_get_page request))))
                  (map format selection))).
  { unfold paginate_questions, QUESTIONS_PER_PAGE, py_slice, slice_bound.
    rewrite length_map.
    destruct ((args_get_page request - 1) * 10 <? 0) eqn:E1;
      [|apply Z.ltb_ge in E1; lia].
    destruct ((args_get_page request - 1) * 10 + 10 <? 0) eqn:E2;
      [|apply Z.ltb_ge in E2; lia].
    f_equal; [|f_equal]; lia. }
  assert (Hlen : Z.of_nat (length (paginate_questions request selection)) =
                 Z.max 0 (Z.of_nat (length selection)
                          + 10 * args_get_page request)
                 - Z.max 0 (Z.of_nat (length selection)
                            - 10 * (1 - args_get_page request))).
  { rewrite Hwin, length_firstn, length_skipn, length_map. lia. }
  split; [exact Hwin|]. split.
  - split.
    + intros Hne. destruct (paginate_questions request selection); [congruence|].
      simpl length in Hlen. lia.
    + intros Hin Heq. rewrite Heq in Hlen. simpl length in Hlen. lia.
  - intros Hin w Hrows. rewrite get_questions_run, Hrows. cbn [fst].
    destruct (length (paginate_questions request selection) =? 0)%nat eqn:E;
      [|reflexivity].
    apply Nat.eqb_eq in E. rewrite E in Hlen. lia.
Qed.

(** Page -1 of fifteen questions is a 200. *)
Lemma paginate_questions_page_minus_1_of_15 :
  status (fst (serve (get_questions (page_request (-1)))
                     (sample_world 15 (fun _ => 0%nat)))) = 200.
Proof.
  assert (Hp : args_get_page (page_request (-1)) <= -1) by (cbn; lia).
  apply (proj2 (proj2 (paginate_questions_negative_pages (page_request (-1))
                         (sample_questions 15) Hp))).
  - cbn. lia.
  - reflexivity.
Defined.
